(** * Allen's interval relations of [allens.py]

    A shallow embedding of the thirteen relation functions of [allens.py]
    and of the fixtures the script runs them on, followed by the properties
    of the relation functions.

    The functions of the script are ordinary Python functions over any
    values that can be compared; the script itself passes [datetime.date]
    values.  They return the integers [1] and [0], or fall off the end of
    the function body, which in Python yields [None]. *)

From Stdlib Require Import ZArith Bool List String Lia.
Import ListNotations.
Local Open Scope Z_scope.

(** ** Python values returned by the functions *)

Module Py.

(** What a relation function can hand back: [None] (no [return] reached)
    or an integer. *)
Inductive value : Type :=
| None : value
| Int : Z -> value.

(** Python's truth test, as used by [if] and [and]. *)
Definition truthy (v : value) : bool :=
  match v with
  | None => false
  | Int n => negb (n =? 0)
  end.

(** [x and y]: [x] when [x] is falsy, otherwise [y]. *)
Definition and_ (x y : value) : value :=
  if truthy x then y else x.

End Py.

(** ** Comparable points *)

(** The points an interval is made of.  All rich comparisons are derived
    from one three-way comparison, as [datetime.date] derives them. *)
Class Point (T : Type) : Type := {
  cmp : T -> T -> comparison;
  cmp_opp : forall a b, cmp b a = CompOpp (cmp a b);
  cmp_eq : forall a b, cmp a b = Eq -> a = b;
  cmp_lt_trans : forall a b c, cmp a b = Lt -> cmp b c = Lt -> cmp a c = Lt
}.

Section Comparisons.
Context {T : Type} `{Point T}.

Definition lt (a b : T) : bool :=
  match cmp a b with Lt => true | _ => false end.
Definition le (a b : T) : bool :=
  match cmp a b with Gt => false | _ => true end.
Definition gt (a b : T) : bool :=
  match cmp a b with Gt => true | _ => false end.
Definition ge (a b : T) : bool :=
  match cmp a b with Lt => false | _ => true end.
Definition eq_ (a b : T) : bool :=
  match cmp a b with Eq => true | _ => false end.
End Comparisons.

(** ** Dates *)

(** [datetime.date(year, month, day)].  Two dates compare by year, then
    month, then day. *)
Record date : Type := Date { year : Z; month : Z; day : Z }.

Definition lexi (c d : comparison) : comparison :=
  match c with Eq => d | _ => c end.

Definition date_cmp (a b : date) : comparison :=
  lexi (year a ?= year b) (lexi (month a ?= month b) (day a ?= day b)).

(** ** The relation functions *)

Section Relations.
Context {T : Type} `{Point T}.

(** [valid_dates(start, stop)] *)
Definition valid_dates (start stop : T) : Py.value :=
  if gt start stop then Py.Int 0 else Py.Int 1.

Definition precedes (begin_start begin_end end_start end_end : T) : Py.value :=
  if Py.truthy (Py.and_ (valid_dates begin_start begin_end)
                        (valid_dates end_start end_end)) then
    if lt begin_start end_start && lt begin_end end_start then Py.Int 1 else Py.Int 0
  else Py.None.

Definition preceded_by (begin_start begin_end end_start end_end : T) : Py.value :=
  if Py.truthy (precedes end_start end_end begin_start begin_end) then Py.Int 1
  else Py.Int 0.

Definition meets (begin_start begin_end end_start end_end : T) : Py.value :=
  if Py.truthy (Py.and_ (valid_dates begin_start begin_end)
                        (valid_dates end_start end_end)) then
    if lt begin_start end_start && le begin_end end_start then Py.Int 1 else Py.Int 0
  else Py.None.

Definition met_by (begin_start begin_end end_start end_end : T) : Py.value :=
  if Py.truthy (meets end_start end_end begin_start begin_end) then Py.Int 1
  else Py.Int 0.

Definition overlaps (begin_start begin_end end_start end_end : T) : Py.value :=
  if Py.truthy (Py.and_ (valid_dates begin_start begin_end)
                        (valid_dates end_start end_end)) then
    if lt begin_start end_start && ge begin_end end_start then Py.Int 1 else Py.Int 0
  else Py.None.

Definition overlapped_by (begin_start begin_end end_start end_end : T) : Py.value :=
  if Py.truthy (overlaps end_start end_end begin_start begin_end) then Py.Int 1
  else Py.Int 0.

Definition finished_by (begin_start begin_end end_start end_end : T) : Py.value :=
  if Py.truthy (Py.and_ (valid_dates begin_start begin_end)
                        (valid_dates end_start end_end)) then
    if lt begin_start end_start && eq_ begin_end end_end then Py.Int 1 else Py.Int 0
  else Py.None.

Definition finishes (begin_start begin_end end_start end_end : T) : Py.value :=
  if Py.truthy (finished_by end_start end_end begin_start begin_end) then Py.Int 1
  else Py.Int 0.

Definition contains (begin_start begin_end end_start end_end : T) : Py.value :=
  if Py.truthy (Py.and_ (valid_dates begin_start begin_end)
                        (valid_dates end_start end_end)) then
    if lt begin_start end_start && gt begin_end end_start then Py.Int 1 else Py.Int 0
  else Py.None.

Definition during (begin_start begin_end end_start end_end : T) : Py.value :=
  if Py.truthy (contains end_start end_end begin_start begin_end) then Py.Int 1
  else Py.Int 0.

Definition starts (begin_start begin_end end_start end_end : T) : Py.value :=
  if Py.truthy (Py.and_ (valid_dates begin_start begin_end)
                        (valid_dates end_start end_end)) then
    if eq_ begin_start end_start && lt begin_end end_end then Py.Int 1 else Py.Int 0
  else Py.None.

Definition started_by (begin_start begin_end end_start end_end : T) : Py.value :=
  if Py.truthy (starts end_start end_end begin_start begin_end) then Py.Int 1
  else Py.Int 0.

Definition equals (begin_start begin_end end_start end_end : T) : Py.value :=
  if Py.truthy (Py.and_ (valid_dates begin_start begin_end)
                        (valid_dates end_start end_end)) then
    if eq_ begin_start end_start && eq_ begin_end end_end then Py.Int 1 else Py.Int 0
  else Py.None.

(** An interval is valid when its start is not after its end, and
    invalid when it is. *)
Definition valid (start stop : T) : Prop := le start stop = true.
Definition invalid (start stop : T) : Prop := gt start stop = true.

End Relations.

(** ** The fixtures of the script *)

Definition fixture : Type := (date * date * date * date)%type.

Definition PRECEDES : fixture :=
  (Date 2014 11 1, Date 2015 4 1, Date 2015 5 12, Date 2015 9 5).
Definition PRECEDED_BY : fixture :=
  (Date 2015 5 12, Date 2015 9 5, Date 2014 11 1, Date 2015 4 1).
Definition MEETS : fixture :=
  (Date 2014 11 1, Date 2015 4 1, Date 2015 4 1, Date 2015 9 5).
Definition MET_BY : fixture :=
  (Date 2015 5 12, Date 2015 9 5, Date 2014 11 1, Date 2015 5 12).
Definition OVERLAPS : fixture :=
  (Date 2013 6 1, Date 2015 1 1, Date 2014 12 1, Date 2015 9 5).
Definition OVERLAPPED_BY : fixture :=
  (Date 2014 5 12, Date 2015 3 6, Date 2013 11 1, Date 2014 12 12).
Definition FINISHED_BY : fixture :=
  (Date 2013 8 1, Date 2015 8 7, Date 2014 12 1, Date 2015 8 7).
Definition FINISHES : fixture :=
  (Date 2014 5 12, Date 2015 8 7, Date 2013 11 1, Date 2015 8 7).
Definition CONTAINS : fixture :=
  (Date 2013 8 1, Date 2015 8 7, Date 2014 12 1, Date 2015 2 7).
Definition DURING : fixture :=
  (Date 2014 5 12, Date 2015 8 7, Date 2013 11 1, Date 2015 11 7).
Definition STARTS : fixture :=
  (Date 2011 8 1, Date 2012 8 7, Date 2011 8 1, Date 2014 2 7).
Definition STARTED_BY : fixture :=
  (Date 2013 7 5, Date 2015 8 7, Date 2013 7 5, Date 2014 10 7).
Definition EQUALS : fixture :=
  (Date 1969 6 4, Date 1972 4 17, Date 1969 6 4, Date 1972 4 17).

(** [f(X[0], X[1], X[2], X[3])], the way the script calls a function on a
    fixture. *)
Definition on {R : Type} (f : date -> date -> date -> date -> R) (X : fixture) : R :=
  let '(x0, x1, x2, x3) := X in f x0 x1 x2 x3.

(** ** Relations and conflict categories *)

(** Modelled from the spec: the closed enumeration of relation names.  The
    script has one function per relation and no type that names them. *)
Inductive Relation : Type :=
| Precedes | PrecededBy | Meets | MetBy | Overlaps | OverlappedBy
| FinishedBy | Finishes | Contains | During | Starts | StartedBy | Equals.

(** Modelled from the spec: the three conflict categories.  The script
    only describes them in its header comment. *)
Inductive ConflictCategory : Type := EQUAL | COMPATIBLE | CONFLICTING.

(** Modelled from the spec: the relation to conflict category mapper.  The
    script has no such function; its header comment names the three states
    and lists precedes, meets, preceded by and met by as the acceptable
    ones. *)
Definition category (r : Relation) : ConflictCategory :=
  match r with
  | Equals => EQUAL
  | Precedes | PrecededBy | Meets | MetBy => COMPATIBLE
  | Overlaps | OverlappedBy | FinishedBy | Finishes
  | Contains | During | Starts | StartedBy => CONFLICTING
  end.

(** The function of the script that tests a named relation. *)
Definition predicate {T : Type} `{Point T} (r : Relation)
  : T -> T -> T -> T -> Py.value :=
  match r with
  | Precedes => precedes | PrecededBy => preceded_by
  | Meets => meets | MetBy => met_by
  | Overlaps => overlaps | OverlappedBy => overlapped_by
  | FinishedBy => finished_by | Finishes => finishes
  | Contains => contains | During => during
  | Starts => starts | StartedBy => started_by
  | Equals => equals
  end.

Definition all_relations : list Relation :=
  [Precedes; PrecededBy; Meets; MetBy; Overlaps; OverlappedBy;
   FinishedBy; Finishes; Contains; During; Starts; StartedBy; Equals].

(** The relations whose function gives a true result on a pair. *)
Definition holding {T : Type} `{Point T} (a_start a_end b_start b_end : T)
  : list Relation :=
  filter (fun r => Py.truthy (predicate r a_start a_end b_start b_end))
         all_relations.


Definition complements {T : Type} `{Point T}
  : list (T -> T -> T -> T -> Py.value) :=
  [preceded_by; met_by; overlapped_by; finishes; during; started_by].

(** ** The script body *)

(** [if f(X[0],X[1],X[2],X[3]): print yes], optionally with an [else]
    branch that prints too.  The output is the list of printed lines. *)
Definition print_if (v : Py.value) (yes : string) (no : list string)
  : list string :=
  if Py.truthy v then [yes] else no.

(** Modelled with the date instance passed in, since the instance is
    built from the comparison lemmas further down. *)
Definition main_with (P : Point date) : list string :=
  List.concat
  [print_if (on precedes PRECEDES) "Yes precedes" [];
   print_if (on preceded_by PRECEDED_BY) "Yes preceded_by" [];
   print_if (on meets MEETS) "Yes meets" [];
   print_if (on met_by MET_BY) "Yes met_by" [];
   print_if (on overlaps OVERLAPS) "Yes overlaps" [];
   print_if (on overlapped_by OVERLAPPED_BY) "Yes overlapped_by" [];
   print_if (on finished_by FINISHED_BY) "Yes finished_by" [];
   print_if (on finishes FINISHES) "Yes finishes" [];
   print_if (on contains CONTAINS) "Yes contains" [];
   print_if (on during DURING) "Yes during" [];
   print_if (on starts STARTS) "Yes starts" [];
   print_if (on started_by STARTED_BY) "Yes started_by" [];
   print_if (on equals EQUALS) "Yes equals" [];
   ["----------------------- contrary test -----------------------"%string];
   print_if (on precedes PRECEDED_BY)
        "Yes, Precedes with precedes_by mateches"
        ["No, Precedes with precedes_by doesn't match"%string];
   print_if (on preceded_by PRECEDES)
        "Yes preceded_by with precedes matches"
        ["No, preceded_by with precedes matches doesn't match"%string];
   print_if (on meets MET_BY)
        "Yes, meets with met_by mateches"
        ["No, meets with met_by doesn't match"%string];
   print_if (on met_by MEETS)
        "Yes, met_by with meets mateches"
        ["No, met_by with meets doesn't match"%string]].

(** * Properties *)

(** ** The point instances *)

Lemma Z_cmp_opp (a b : Z) : (b ?= a) = CompOpp (a ?= b).
Proof. apply Z.compare_antisym. Qed.

Lemma Z_cmp_lt_trans (a b c : Z) :
  (a ?= b) = Lt -> (b ?= c) = Lt -> (a ?= c) = Lt.
Proof. rewrite !Z.compare_lt_iff. lia. Qed.

(** Integers are points. *)
#[export] Instance Z_Point : Point Z :=
  {| cmp := Z.compare;
     cmp_opp := Z_cmp_opp;
     cmp_eq := Z.compare_eq;
     cmp_lt_trans := Z_cmp_lt_trans |}.

Lemma lexi_opp (c d : comparison) :
  CompOpp (lexi c d) = lexi (CompOpp c) (CompOpp d).
Proof. now destruct c. Qed.

Lemma lexi_eq (c d : comparison) : lexi c d = Eq -> c = Eq /\ d = Eq.
Proof. destruct c; simpl; intro E; (discriminate || now split). Qed.

Lemma lexi_lt (c d : comparison) :
  lexi c d = Lt <-> c = Lt \/ (c = Eq /\ d = Lt).
Proof.
  destruct c; simpl; split; intro E; auto;
    try discriminate; destruct E as [E | [E E']]; congruence.
Qed.

Lemma date_cmp_opp (a b : date) : date_cmp b a = CompOpp (date_cmp a b).
Proof.
  unfold date_cmp. rewrite !lexi_opp, <- !Z.compare_antisym. reflexivity.
Qed.

Lemma date_cmp_eq (a b : date) : date_cmp a b = Eq -> a = b.
Proof.
  destruct a as [y m d], b as [y' m' d']. unfold date_cmp. simpl.
  intro E. apply lexi_eq in E. destruct E as [Ey E].
  apply lexi_eq in E. destruct E as [Em Ed].
  apply Z.compare_eq in Ey, Em, Ed. congruence.
Qed.

Lemma date_cmp_lt_trans (a b c : date) :
  date_cmp a b = Lt -> date_cmp b c = Lt -> date_cmp a c = Lt.
Proof.
  unfold date_cmp. rewrite !lexi_lt, !Z.compare_lt_iff, !Z.compare_eq_iff. lia.
Qed.

(** Dates are points. *)
#[export] Instance date_Point : Point date :=
  {| cmp := date_cmp;
     cmp_opp := date_cmp_opp;
     cmp_eq := date_cmp_eq;
     cmp_lt_trans := date_cmp_lt_trans |}.

(** ** Facts shared by the proofs *)

Section Facts.
Context {T : Type} `{Point T}.

Lemma cmp_refl (a : T) : cmp a a = Eq.
Proof.
  pose proof (cmp_opp a a) as E. destruct (cmp a a); simpl in E; congruence.
Qed.

(** The validator answers [1] on the valid intervals and [0] on the
    others. *)
Lemma valid_dates_valid (start stop : T) :
  valid start stop <-> valid_dates start stop = Py.Int 1.
Proof.
  unfold valid, valid_dates, le, gt.
  destruct (cmp start stop); split; congruence.
Qed.

Lemma valid_dates_invalid (start stop : T) :
  invalid start stop <-> valid_dates start stop = Py.Int 0.
Proof.
  unfold invalid, valid_dates, gt.
  destruct (cmp start stop); split; congruence.
Qed.

Lemma valid_or_invalid (start stop : T) :
  valid start stop \/ invalid start stop.
Proof.
  unfold valid, invalid, le, gt. destruct (cmp start stop); auto.
Qed.

Lemma invalid_not_valid (start stop : T) :
  invalid start stop -> ~ valid start stop.
Proof.
  unfold valid, invalid, le, gt. destruct (cmp start stop); congruence.
Qed.

(** The guard of the validating functions passes on two valid intervals
    and fails on the rest. *)
Lemma guard_valid (a_start a_end b_start b_end : T) :
  valid a_start a_end -> valid b_start b_end ->
  Py.truthy (Py.and_ (valid_dates a_start a_end) (valid_dates b_start b_end))
  = true.
Proof.
  intros Ha Hb. apply valid_dates_valid in Ha, Hb. now rewrite Ha, Hb.
Qed.

Lemma guard_invalid (a_start a_end b_start b_end : T) :
  invalid a_start a_end \/ invalid b_start b_end ->
  Py.truthy (Py.and_ (valid_dates a_start a_end) (valid_dates b_start b_end))
  = false.
Proof.
  intros [Ha | Hb].
  - apply valid_dates_invalid in Ha. now rewrite Ha.
  - apply valid_dates_invalid in Hb. rewrite Hb.
    unfold Py.and_. now destruct (Py.truthy (valid_dates a_start a_end)) eqn:E.
Qed.

End Facts.

Create HintDb allen.

#[local] Hint Unfold precedes preceded_by meets met_by overlaps overlapped_by
  finished_by finishes contains during starts started_by equals : allen.

(** Open every relation function and settle its guard on valid intervals. *)
Ltac open_valid Ha Hb :=
  autounfold with allen;
  rewrite ?(guard_valid _ _ _ _ Ha Hb), ?(guard_valid _ _ _ _ Hb Ha).

(** The same on a pair with an invalid interval. *)
Ltac open_invalid Hi Hi' :=
  autounfold with allen;
  rewrite ?(guard_invalid _ _ _ _ Hi), ?(guard_invalid _ _ _ _ Hi').

(** ** The thirteen functions on valid intervals *)

Section Valid.
Context {T : Type} `{Point T}.
Implicit Types a_start a_end b_start b_end : T.

(** C2.  Exhaustiveness: on every pair of valid intervals at least one
    of the thirteen functions returns a true value, namely [1]. *)
Theorem exhaustive a_start a_end b_start b_end :
  valid a_start a_end -> valid b_start b_end ->
  exists r : Relation, predicate r a_start a_end b_start b_end = Py.Int 1.
Proof.
  intros Ha Hb.
  destruct (cmp a_start b_start) eqn:Es.
  - (* equal starts: the ends decide among starts, equals, started by *)
    destruct (cmp a_end b_end) eqn:Ee.
    + exists Equals. simpl. open_valid Ha Hb.
      unfold eq_. now rewrite Es, Ee.
    + exists Starts. simpl. open_valid Ha Hb.
      unfold eq_, lt. now rewrite Es, Ee.
    + exists StartedBy. simpl. open_valid Ha Hb.
      unfold eq_, lt.
      now rewrite (cmp_opp a_start b_start), (cmp_opp a_end b_end), Es, Ee.
  - (* A starts first *)
    destruct (cmp a_end b_start) eqn:Ee.
    1, 3: exists Overlaps; simpl; open_valid Ha Hb;
          unfold lt, ge; now rewrite Es, Ee.
    exists Precedes. simpl. open_valid Ha Hb.
    unfold lt. now rewrite Es, Ee.
  - (* B starts first *)
    assert (Es' : cmp b_start a_start = Lt)
      by now rewrite (cmp_opp a_start b_start), Es.
    destruct (cmp b_end a_start) eqn:Ee.
    1, 3: exists OverlappedBy; simpl; open_valid Ha Hb;
          unfold lt, ge; now rewrite Es', Ee.
    exists PrecededBy. simpl. open_valid Ha Hb.
    unfold lt. now rewrite Es', Ee.
Qed.

(** C4.  Complement symmetry: on valid intervals each complement
    function returns what its base function returns on the swapped pair,
    and [equals] returns the same either way round. *)
Theorem complement_symmetry a_start a_end b_start b_end :
  valid a_start a_end -> valid b_start b_end ->
  precedes a_start a_end b_start b_end
    = preceded_by b_start b_end a_start a_end /\
  meets a_start a_end b_start b_end
    = met_by b_start b_end a_start a_end /\
  overlaps a_start a_end b_start b_end
    = overlapped_by b_start b_end a_start a_end /\
  finished_by a_start a_end b_start b_end
    = finishes b_start b_end a_start a_end /\
  contains a_start a_end b_start b_end
    = during b_start b_end a_start a_end /\
  starts a_start a_end b_start b_end
    = started_by b_start b_end a_start a_end /\
  equals a_start a_end b_start b_end
    = equals b_start b_end a_start a_end.
Proof.
  intros Ha Hb. open_valid Ha Hb.
  repeat split;
    try (match goal with
         | |- (if ?t then _ else _) = _ => now destruct t
         end).
  unfold eq_.
  rewrite (cmp_opp a_start b_start), (cmp_opp a_end b_end).
  now destruct (cmp a_start b_start), (cmp a_end b_end).
Qed.

(** C5.  Boundary policy of [meets]: on valid intervals it returns a true
    value exactly when [as < bs] and [ae <= bs]. *)
Theorem meets_boundary a_start a_end b_start b_end :
  valid a_start a_end -> valid b_start b_end ->
  Py.truthy (meets a_start a_end b_start b_end) = true
  <-> lt a_start b_start = true /\ le a_end b_start = true.
Proof.
  intros Ha Hb. unfold meets. rewrite (guard_valid _ _ _ _ Ha Hb).
  rewrite <- andb_true_iff.
  now destruct (lt a_start b_start && le a_end b_start).
Qed.

(** C7.  Reflexivity of [equals]: a valid interval equals itself. *)
Theorem equals_reflexive a_start a_end :
  valid a_start a_end ->
  equals a_start a_end a_start a_end = Py.Int 1.
Proof.
  intro Ha. unfold equals. rewrite (guard_valid _ _ _ _ Ha Ha).
  unfold eq_. now rewrite !cmp_refl.
Qed.

(** C9.  Whenever [precedes] returns a true value on valid intervals,
    [meets] returns [1] on them as well: the two functions are not
    disjoint. *)
Theorem precedes_implies_meets a_start a_end b_start b_end :
  valid a_start a_end -> valid b_start b_end ->
  Py.truthy (precedes a_start a_end b_start b_end) = true ->
  meets a_start a_end b_start b_end = Py.Int 1.
Proof.
  intros Ha Hb. unfold precedes, meets.
  rewrite (guard_valid _ _ _ _ Ha Hb). unfold lt, le.
  destruct (cmp a_start b_start), (cmp a_end b_start);
    simpl; intro E; (discriminate E || reflexivity).
Qed.

End Valid.

(** The claims at work on pairs of integer intervals. *)
Lemma exhaustive_witness :
  valid 1 4 /\ valid 2 3 /\
  exists r : Relation, predicate r 1 4 2 3 = Py.Int 1.
Proof.
  split; [reflexivity | split; [reflexivity |]].
  apply (exhaustive 1 4 2 3); reflexivity.
Defined.

Lemma complement_symmetry_witness :
  valid 1 3 /\ valid 3 7 /\
  meets 1 3 3 7 = met_by 3 7 1 3 /\ equals 1 3 3 7 = equals 3 7 1 3.
Proof.
  split; [reflexivity | split; [reflexivity |]].
  destruct (complement_symmetry 1 3 3 7) as (_ & Hm & _ & _ & _ & _ & He);
    [reflexivity | reflexivity |].
  split; [exact Hm | exact He].
Defined.

Lemma meets_boundary_witness :
  valid 1 3 /\ valid 3 7 /\
  (Py.truthy (meets 1 3 3 7) = true <-> lt 1 3 = true /\ le 3 3 = true).
Proof.
  split; [reflexivity | split; [reflexivity |]].
  apply (meets_boundary 1 3 3 7); reflexivity.
Defined.

Lemma equals_reflexive_witness :
  valid 2 2 /\ equals 2 2 2 2 = Py.Int 1.
Proof.
  split; [reflexivity |]. apply (equals_reflexive 2 2). reflexivity.
Defined.

Lemma precedes_implies_meets_witness :
  valid 1 2 /\ valid 5 9 /\ Py.truthy (precedes 1 2 5 9) = true /\
  meets 1 2 5 9 = Py.Int 1.
Proof.
  repeat (split; [reflexivity |]).
  apply (precedes_implies_meets 1 2 5 9); reflexivity.
Defined.

(** ** The thirteen functions on invalid intervals *)

Section Invalid.
Context {T : Type} `{Point T}.
Implicit Types a_start a_end b_start b_end : T.

(** C10.  When either interval is invalid, the seven functions that call
    the validator themselves return [None], the six complement functions
    return [0], and these two results are different values. *)
Theorem invalid_return_values a_start a_end b_start b_end :
  invalid a_start a_end \/ invalid b_start b_end ->
  (precedes a_start a_end b_start b_end = Py.None /\
   meets a_start a_end b_start b_end = Py.None /\
   overlaps a_start a_end b_start b_end = Py.None /\
   finished_by a_start a_end b_start b_end = Py.None /\
   contains a_start a_end b_start b_end = Py.None /\
   starts a_start a_end b_start b_end = Py.None /\
   equals a_start a_end b_start b_end = Py.None) /\
  (preceded_by a_start a_end b_start b_end = Py.Int 0 /\
   met_by a_start a_end b_start b_end = Py.Int 0 /\
   overlapped_by a_start a_end b_start b_end = Py.Int 0 /\
   finishes a_start a_end b_start b_end = Py.Int 0 /\
   during a_start a_end b_start b_end = Py.Int 0 /\
   started_by a_start a_end b_start b_end = Py.Int 0) /\
  Py.None <> Py.Int 0.
Proof.
  intro Hi.
  assert (Hi' : invalid b_start b_end \/ invalid a_start a_end) by tauto.
  open_invalid Hi Hi'. simpl.
  repeat split. discriminate.
Qed.

(** Every function returns [None], [0] or [1], whatever it is given. *)
Lemma predicate_range (r : Relation) a_start a_end b_start b_end :
  In (predicate r a_start a_end b_start b_end) [Py.None; Py.Int 0; Py.Int 1].
Proof.
  destruct r; simpl; autounfold with allen;
    repeat match goal with
           | |- context [if ?t then _ else _] => destruct t; simpl
           end;
    tauto.
Qed.

(** C3.  When at least one interval is invalid, each of the thirteen
    functions returns a value, and that value is a false one. *)
Theorem invalid_input_fails (r : Relation) a_start a_end b_start b_end :
  invalid a_start a_end \/ invalid b_start b_end ->
  exists v : Py.value,
    predicate r a_start a_end b_start b_end = v /\ Py.truthy v = false.
Proof.
  intro Hi.
  assert (Hi' : invalid b_start b_end \/ invalid a_start a_end) by tauto.
  eexists. split; [reflexivity |].
  destruct r; simpl; open_invalid Hi Hi'; reflexivity.
Qed.

End Invalid.

Lemma invalid_return_values_witness :
  (invalid 5 1 \/ invalid 2 3) /\
  precedes 5 1 2 3 = Py.None /\ preceded_by 5 1 2 3 = Py.Int 0.
Proof.
  split; [left; reflexivity |].
  destruct (invalid_return_values 5 1 2 3) as ((Hp & _) & (Hq & _) & _);
    [left; reflexivity |].
  split; [exact Hp | exact Hq].
Defined.

Lemma invalid_input_fails_witness :
  (invalid 1 5 \/ invalid 3 2) /\
  exists v : Py.value, during 1 5 3 2 = v /\ Py.truthy v = false.
Proof.
  split; [right; reflexivity |].
  apply (invalid_input_fails During 1 5 3 2). right. reflexivity.
Defined.

(** ** The fixtures *)

(** Each fixture of the script makes the function it is named after
    return [1], as the first block of the script's output shows. *)
Lemma fixtures_hold :
  on precedes PRECEDES = Py.Int 1 /\ on preceded_by PRECEDED_BY = Py.Int 1 /\
  on meets MEETS = Py.Int 1 /\ on met_by MET_BY = Py.Int 1 /\
  on overlaps OVERLAPS = Py.Int 1 /\ on overlapped_by OVERLAPPED_BY = Py.Int 1 /\
  on finished_by FINISHED_BY = Py.Int 1 /\ on finishes FINISHES = Py.Int 1 /\
  on contains CONTAINS = Py.Int 1 /\ on during DURING = Py.Int 1 /\
  on starts STARTS = Py.Int 1 /\ on started_by STARTED_BY = Py.Int 1 /\
  on equals EQUALS = Py.Int 1.
Proof. repeat split; vm_compute; reflexivity. Qed.

(** C1.  Mutual exclusivity does not hold of the code: on the script's own
    fixture for precedes, two valid intervals, both [precedes] and [meets]
    return [1], and they are the two functions that return a true value. *)
Theorem precedes_and_meets_both_hold :
  on (fun a_start a_end b_start b_end =>
        valid a_start a_end /\ valid b_start b_end) PRECEDES /\
  on precedes PRECEDES = Py.Int 1 /\
  on meets PRECEDES = Py.Int 1 /\
  on holding PRECEDES = [Precedes; Meets].
Proof.
  unfold on, PRECEDES. repeat split.
Qed.

(** C8.  On the fixture for overlaps, [overlaps] returns [1], overlaps is a
    conflicting relation, and so is every relation whose function returns a
    true value on the fixture. *)
Theorem overlaps_scenario :
  OVERLAPS = (Date 2013 6 1, Date 2015 1 1, Date 2014 12 1, Date 2015 9 5) /\
  on overlaps OVERLAPS = Py.Int 1 /\
  category Overlaps = CONFLICTING /\
  forall r : Relation, In r (on holding OVERLAPS) -> category r = CONFLICTING.
Proof.
  split; [reflexivity |]. split; [reflexivity |]. split; [reflexivity |].
  intros r Hr.
  assert (E : on holding OVERLAPS = [Overlaps; Contains]) by reflexivity.
  rewrite E in Hr. simpl in Hr.
  destruct Hr as [<- | [<- | []]]; reflexivity.
Qed.

(** ** The conflict categories *)

(** C6.  The mapper answers EQUAL exactly on equals, COMPATIBLE exactly on
    precedes, preceded by, meets and met by, and CONFLICTING exactly on the
    eight other relations. *)
Theorem category_mapping (r : Relation) :
  (category r = EQUAL <-> r = Equals) /\
  (category r = COMPATIBLE <-> In r [Precedes; PrecededBy; Meets; MetBy]) /\
  (category r = CONFLICTING <->
   In r [Overlaps; OverlappedBy; FinishedBy; Finishes;
         Contains; During; Starts; StartedBy]).
Proof.
  destruct r; simpl; repeat split; intro E;
    try discriminate E; try reflexivity; try tauto;
    repeat (destruct E as [E | E]; try discriminate E); try contradiction.
Qed.

(** ** Order facts behind the relation functions *)

Section Order.
Context {T : Type} `{Point T}.
Implicit Types a b c : T.

Lemma lt_trans a b c : lt a b = true -> lt b c = true -> lt a c = true.
Proof.
  unfold lt. intros Hab Hbc.
  destruct (cmp a b) eqn:Eab; try discriminate.
  destruct (cmp b c) eqn:Ebc; try discriminate.
  now rewrite (cmp_lt_trans a b c Eab Ebc).
Qed.

Lemma le_lt_trans a b c : le a b = true -> lt b c = true -> lt a c = true.
Proof.
  intros Hab Hbc. unfold le in Hab.
  destruct (cmp a b) eqn:Eab; try discriminate.
  - apply cmp_eq in Eab. now subst b.
  - apply (lt_trans a b c); [unfold lt; now rewrite Eab | exact Hbc].
Qed.

Lemma eq_true a b : eq_ a b = true -> a = b.
Proof.
  unfold eq_. destruct (cmp a b) eqn:E; try discriminate.
  intros _. now apply cmp_eq.
Qed.

Lemma ge_le a b : ge a b = le b a.
Proof. unfold ge, le. rewrite (cmp_opp a b). now destruct (cmp a b). Qed.

(** The guard passes exactly on two valid intervals. *)
Lemma guard_true_iff (a_start a_end b_start b_end : T) :
  Py.truthy (Py.and_ (valid_dates a_start a_end) (valid_dates b_start b_end))
  = true
  <-> valid a_start a_end /\ valid b_start b_end.
Proof.
  split.
  - intro G.
    destruct (valid_or_invalid a_start a_end) as [Ha | Ha];
      destruct (valid_or_invalid b_start b_end) as [Hb | Hb]; auto;
      rewrite guard_invalid in G by auto; discriminate.
  - intros [Ha Hb]. now apply guard_valid.
Qed.

(** A validating function gives a true value exactly when its guard
    passes and its test succeeds. *)
Lemma guarded_true (g : Py.value) (test : bool) :
  Py.truthy (if Py.truthy g then if test then Py.Int 1 else Py.Int 0
             else Py.None) = true
  <-> Py.truthy g = true /\ test = true.
Proof.
  destruct (Py.truthy g), test; simpl; split; intuition congruence.
Qed.

Lemma precedes_true (a_start a_end b_start b_end : T) :
  Py.truthy (precedes a_start a_end b_start b_end) = true
  <-> (valid a_start a_end /\ valid b_start b_end)
      /\ lt a_start b_start = true /\ lt a_end b_start = true.
Proof.
  unfold precedes. now rewrite guarded_true, guard_true_iff, andb_true_iff.
Qed.

End Order.

(** ** How the relation functions relate to one another *)

Section Algebra.
Context {T : Type} `{Point T}.
Implicit Types a_start a_end b_start b_end c_start c_end : T.

(** On valid intervals the first comparison of [precedes] is implied by the
    second: [precedes] gives a true value exactly when A ends before B
    starts. *)
Theorem precedes_iff_ends_before a_start a_end b_start b_end :
  valid a_start a_end -> valid b_start b_end ->
  Py.truthy (precedes a_start a_end b_start b_end) = true
  <-> lt a_end b_start = true.
Proof.
  intros Ha Hb. rewrite precedes_true. split.
  - now intros (_ & _ & E).
  - intro E. repeat split; trivial.
    now apply (le_lt_trans a_start a_end b_start).
Qed.

(** [precedes] is transitive: if it gives a true value on (A, B) and on
    (B, C), it returns [1] on (A, C). *)
Theorem precedes_transitive a_start a_end b_start b_end c_start c_end :
  Py.truthy (precedes a_start a_end b_start b_end) = true ->
  Py.truthy (precedes b_start b_end c_start c_end) = true ->
  precedes a_start a_end c_start c_end = Py.Int 1.
Proof.
  rewrite !precedes_true.
  intros ((Ha & _) & Hs & He) ((_ & Hc) & Hs' & _).
  unfold precedes. rewrite (guard_valid _ _ _ _ Ha Hc).
  now rewrite (lt_trans _ _ _ Hs Hs'), (lt_trans _ _ _ He Hs').
Qed.

(** The six validating functions other than [equals] are asymmetric: when
    one of them gives a true value on (A, B), it returns [0] on (B, A).
    The contrary test of the script checks instances of this. *)
Theorem swapped_pair_fails (f : T -> T -> T -> T -> Py.value)
        a_start a_end b_start b_end :
  In f [precedes; meets; overlaps; finished_by; contains; starts] ->
  Py.truthy (f a_start a_end b_start b_end) = true ->
  f b_start b_end a_start a_end = Py.Int 0.
Proof.
  intros Hf.
  repeat (destruct Hf as [<- | Hf]); try contradiction;
    autounfold with allen; rewrite guarded_true, guard_true_iff;
    intros ((Ha & Hb) & E); rewrite (guard_valid _ _ _ _ Hb Ha);
    apply andb_true_iff in E; destruct E as (E1 & E2);
    unfold lt, eq_ in *;
    rewrite (cmp_opp a_start b_start), ?(cmp_opp a_end b_end);
    destruct (cmp a_start b_start); try discriminate E1;
    try reflexivity;
    destruct (cmp a_end b_end); try discriminate E2; reflexivity.
Qed.

(** When A starts before B, [overlaps] answers the opposite of
    [precedes]; when it does not, [overlaps] fails. *)
Theorem overlaps_opposes_precedes a_start a_end b_start b_end :
  valid a_start a_end -> valid b_start b_end ->
  Py.truthy (overlaps a_start a_end b_start b_end)
  = lt a_start b_start
    && negb (Py.truthy (precedes a_start a_end b_start b_end)).
Proof.
  intros Ha Hb. open_valid Ha Hb. unfold lt, ge.
  now destruct (cmp a_start b_start), (cmp a_end b_start).
Qed.

(** On valid intervals, whenever [contains] or [finished_by] gives a true
    value, [overlaps] returns [1]. *)
Theorem contains_or_finished_by_overlaps a_start a_end b_start b_end :
  valid a_start a_end -> valid b_start b_end ->
  Py.truthy (contains a_start a_end b_start b_end) = true \/
  Py.truthy (finished_by a_start a_end b_start b_end) = true ->
  overlaps a_start a_end b_start b_end = Py.Int 1.
Proof.
  intros Ha Hb. open_valid Ha Hb. intros [E | E].
  - unfold lt, gt, ge in *.
    now destruct (cmp a_start b_start), (cmp a_end b_start).
  - destruct (lt a_start b_start); [| discriminate E]. simpl in *.
    destruct (eq_ a_end b_end) eqn:Ee; [| discriminate E].
    apply eq_true in Ee. subst b_end.
    rewrite ge_le. unfold valid in Hb. now rewrite Hb.
Qed.

(** On valid intervals [meets] and [overlaps] both give a true value
    exactly when A starts before B and ends where B starts. *)
Theorem meets_and_overlaps_iff_touching a_start a_end b_start b_end :
  valid a_start a_end -> valid b_start b_end ->
  (Py.truthy (meets a_start a_end b_start b_end) = true /\
   Py.truthy (overlaps a_start a_end b_start b_end) = true)
  <-> (lt a_start b_start = true /\ eq_ a_end b_start = true).
Proof.
  intros Ha Hb. open_valid Ha Hb. unfold lt, le, ge, eq_.
  destruct (cmp a_start b_start), (cmp a_end b_start); simpl;
    intuition discriminate.
Qed.

(** [equals] gives a true value exactly when the first interval is valid
    and the two intervals have the same endpoints. *)
Theorem equals_iff_same_interval a_start a_end b_start b_end :
  Py.truthy (equals a_start a_end b_start b_end) = true
  <-> valid a_start a_end /\ a_start = b_start /\ a_end = b_end.
Proof.
  unfold equals. rewrite guarded_true, guard_true_iff, andb_true_iff. split.
  - intros ((Ha & _) & Es & Ee). apply eq_true in Es, Ee. auto.
  - intros (Ha & <- & <-). unfold eq_. rewrite !cmp_refl. auto.
Qed.

End Algebra.

(** ** Which functions answer yes together *)

Section Together.
Context {T : Type} `{Point T}.
Implicit Types a_start a_end b_start b_end : T.


(** On a valid interval compared with itself only [equals] gives a true
    value. *)
Theorem only_equals_on_itself a_start a_end :
  valid a_start a_end ->
  holding a_start a_end a_start a_end = [Equals].
Proof.
  intro Ha. unfold holding. simpl. open_valid Ha Ha.
  unfold lt, eq_. rewrite !cmp_refl. reflexivity.
Qed.

(** On valid intervals exactly one function gives a true value when the
    two intervals start together, and two or three do when they do not. *)
Theorem one_answer_iff_same_start a_start a_end b_start b_end :
  valid a_start a_end -> valid b_start b_end ->
  (List.length (holding a_start a_end b_start b_end) = 1%nat
   <-> eq_ a_start b_start = true) /\
  (eq_ a_start b_start = false ->
   (2 <= List.length (holding a_start a_end b_start b_end) <= 3)%nat).
Proof.
  intros Ha Hb. unfold holding. simpl. open_valid Ha Hb.
  unfold lt, le, gt, ge, eq_.
  rewrite (cmp_opp a_start b_start), (cmp_opp a_end b_end).
  destruct (cmp a_start b_start), (cmp a_end b_start),
    (cmp a_end b_end), (cmp b_end a_start);
    simpl; repeat split; intros; try discriminate; try reflexivity; lia.
Qed.

(** The complete table of answers on valid intervals.  How the starts
    compare selects the family; inside a family the answers follow from
    where one end lies with respect to the other interval. *)
Theorem answers_on_valid_intervals a_start a_end b_start b_end :
  valid a_start a_end -> valid b_start b_end ->
  holding a_start a_end b_start b_end =
  match cmp a_start b_start with
  | Lt =>
      match cmp a_end b_start with
      | Lt => [Precedes; Meets]
      | Eq => if eq_ a_end b_end then [Meets; Overlaps; FinishedBy]
              else [Meets; Overlaps]
      | Gt => if eq_ a_end b_end then [Overlaps; FinishedBy; Contains]
              else [Overlaps; Contains]
      end
  | Eq =>
      match cmp a_end b_end with
      | Lt => [Starts]
      | Eq => [Equals]
      | Gt => [StartedBy]
      end
  | Gt =>
      match cmp b_end a_start with
      | Lt => [PrecededBy; MetBy]
      | Eq => if eq_ b_end a_end then [MetBy; OverlappedBy; Finishes]
              else [MetBy; OverlappedBy]
      | Gt => if eq_ b_end a_end then [OverlappedBy; Finishes; During]
              else [OverlappedBy; During]
      end
  end.
Proof.
  intros Ha Hb.
  (* an interval that ends before the other starts cannot end with it *)
  assert (Fa : lt a_end b_start = true -> eq_ a_end b_end = false).
  { intro E. destruct (eq_ a_end b_end) eqn:Ee; trivial.
    apply eq_true in Ee. subst b_end.
    pose proof (le_lt_trans _ _ _ Hb E) as C. unfold lt in C.
    now rewrite cmp_refl in C. }
  assert (Fb : lt b_end a_start = true -> eq_ b_end a_end = false).
  { intro E. destruct (eq_ b_end a_end) eqn:Ee; trivial.
    apply eq_true in Ee. subst b_end.
    pose proof (le_lt_trans _ _ _ Ha E) as C. unfold lt in C.
    now rewrite cmp_refl in C. }
  unfold holding. simpl. open_valid Ha Hb.
  unfold lt, le, gt, ge, eq_ in *.
  rewrite (cmp_opp a_start b_start).
  destruct (cmp a_start b_start) eqn:Es; simpl.
  - rewrite (cmp_opp a_end b_end). now destruct (cmp a_end b_end).
  - destruct (cmp a_end b_start) eqn:Ee; simpl.
    + now destruct (cmp a_end b_end).
    + now rewrite Fa.
    + now destruct (cmp a_end b_end).
  - destruct (cmp b_end a_start) eqn:Ee; simpl.
    + now destruct (cmp b_end a_end).
    + now rewrite Fb.
    + now destruct (cmp b_end a_end).
Qed.

End Together.

(** The properties above at work on pairs of integer intervals. *)
Lemma precedes_iff_ends_before_witness :
  valid 1 2 /\ valid 5 9 /\
  (Py.truthy (precedes 1 2 5 9) = true <-> lt 2 5 = true).
Proof.
  split; [reflexivity | split; [reflexivity |]].
  apply (precedes_iff_ends_before 1 2 5 9); reflexivity.
Defined.

Lemma precedes_transitive_witness :
  Py.truthy (precedes 1 2 3 4) = true /\
  Py.truthy (precedes 3 4 5 6) = true /\
  precedes 1 2 5 6 = Py.Int 1.
Proof.
  split; [reflexivity | split; [reflexivity |]].
  apply (precedes_transitive 1 2 3 4 5 6); reflexivity.
Defined.

Lemma swapped_pair_fails_witness :
  In (@contains Z _) [precedes; meets; overlaps; finished_by; contains; starts] /\
  Py.truthy (contains 1 6 3 4) = true /\
  contains 3 4 1 6 = Py.Int 0.
Proof.
  assert (Hin : In (@contains Z _)
                   [precedes; meets; overlaps; finished_by; contains; starts])
    by (simpl; tauto).
  split; [exact Hin | split; [reflexivity |]].
  apply (swapped_pair_fails contains 1 6 3 4 Hin). reflexivity.
Defined.

Lemma overlaps_opposes_precedes_witness :
  valid 1 6 /\ valid 3 8 /\
  Py.truthy (overlaps 1 6 3 8) = lt 1 3 && negb (Py.truthy (precedes 1 6 3 8)).
Proof.
  split; [reflexivity | split; [reflexivity |]].
  apply (overlaps_opposes_precedes 1 6 3 8); reflexivity.
Defined.

Lemma contains_or_finished_by_overlaps_witness :
  valid 1 8 /\ valid 3 8 /\
  (Py.truthy (contains 1 8 3 8) = true \/
   Py.truthy (finished_by 1 8 3 8) = true) /\
  overlaps 1 8 3 8 = Py.Int 1.
Proof.
  split; [reflexivity | split; [reflexivity |]].
  split; [right; reflexivity |].
  apply (contains_or_finished_by_overlaps 1 8 3 8);
    [reflexivity | reflexivity | right; reflexivity].
Defined.

Lemma meets_and_overlaps_iff_touching_witness :
  valid 1 3 /\ valid 3 7 /\
  ((Py.truthy (meets 1 3 3 7) = true /\ Py.truthy (overlaps 1 3 3 7) = true)
   <-> (lt 1 3 = true /\ eq_ 3 3 = true)).
Proof.
  split; [reflexivity | split; [reflexivity |]].
  apply (meets_and_overlaps_iff_touching 1 3 3 7); reflexivity.
Defined.


Lemma only_equals_on_itself_witness :
  valid 2 5 /\ holding 2 5 2 5 = [Equals].
Proof.
  split; [reflexivity |]. apply (only_equals_on_itself 2 5). reflexivity.
Defined.

Lemma one_answer_iff_same_start_witness :
  valid 1 4 /\ valid 1 9 /\
  (List.length (holding 1 4 1 9) = 1%nat <-> eq_ 1 1 = true) /\
  (eq_ 1 1 = false ->
   (2 <= List.length (holding 1 4 1 9)%Z <= 3)%nat).
Proof.
  split; [reflexivity | split; [reflexivity |]].
  apply (one_answer_iff_same_start 1 4 1 9); reflexivity.
Defined.

Lemma answers_on_valid_intervals_witness :
  valid 1 8 /\ valid 3 8 /\
  holding 1 8 3 8 = [Overlaps; FinishedBy; Contains].
Proof.
  split; [reflexivity | split; [reflexivity |]].
  rewrite (answers_on_valid_intervals 1 8 3 8); reflexivity.
Defined.

(** ** The output of the script *)

(** The script prints a line for each of its thirteen fixtures, and then
    answers no to each of its four contrary tests. *)
Lemma main_output :
  main_with date_Point =
  ["Yes precedes"; "Yes preceded_by"; "Yes meets"; "Yes met_by";
   "Yes overlaps"; "Yes overlapped_by"; "Yes finished_by"; "Yes finishes";
   "Yes contains"; "Yes during"; "Yes starts"; "Yes started_by";
   "Yes equals";
   "----------------------- contrary test -----------------------";
   "No, Precedes with precedes_by doesn't match";
   "No, preceded_by with precedes matches doesn't match";
   "No, meets with met_by doesn't match";
   "No, met_by with meets doesn't match"]%string.
Proof. reflexivity. Qed.
